(** * Barber Shop Morocco API: a shallow embedding of [main.py]

    The handlers of [main.py] are embedded as Rocq functions over a small
    universe of Python values.  Conventions:

    - a Python [str] is a Rocq [string] holding its UTF-8 bytes; comparing
      the bytes lexicographically is comparing the code points, which is
      how Python orders strings;
    - a Python [dict] is an association list in insertion order, the order
      in which [items()] iterates; a well-formed dict has no repeated key;
    - a raised exception is the [Raise] case of [outcome]; only instances
      of [Exception] are modelled, since these are what [except Exception]
      sees;
    - naive datetimes only (what the driver returns by default); floating
      point values are left out of the universe. *)

From Stdlib Require Import List String Ascii ZArith Lia Bool Arith.
From Stdlib Require Import Permutation Sorted DecimalString OrderedTypeEx.
Import ListNotations.

Local Open Scope string_scope.
Local Open Scope list_scope.
Set Warnings "-register-all".

(** ** Python values *)

Record datetime := mk_datetime {
  year : nat; month : nat; day : nat;
  hour : nat; minute : nat; second : nat; microsecond : nat
}.

Inductive value :=
| VNone
| VBool (b : bool)
| VInt (n : Z)
| VStr (s : string)
| VObjectId (oid : string)
| VDatetime (d : datetime)
| VList (l : list value)
| VDict (d : list (string * value)).

(** [Dict[str, Any]] *)
Definition dict := list (string * value).

(** ** Exceptions and results *)

Inductive exc :=
| ImportError (msg : string)
| ValidationError (msg : string)
| TypeError (msg : string)
| Exception (msg : string)
| HTTPException (status_code : Z) (detail : string).

Inductive outcome (A : Type) :=
| Ok (a : A)
| Raise (e : exc).
Arguments Ok {A} a.
Arguments Raise {A} e.

Definition bind {A B} (m : outcome A) (k : A -> outcome B) : outcome B :=
  match m with
  | Ok a => k a
  | Raise e => Raise e
  end.

Notation "x <- m ;; k" := (bind m (fun x => k))
  (at level 61, m at next level, right associativity).

(** ** Builtins *)

Definition dec_nat (n : nat) : string := NilZero.string_of_uint (Nat.to_uint n).
Definition dec_Z (n : Z) : string := NilZero.string_of_int (Z.to_int n).

Fixpoint zeros (n : nat) : string :=
  match n with
  | O => ""
  | S n' => String "0" (zeros n')
  end.

(** ["%0<w>d" % n] *)
Definition pad (w n : nat) : string :=
  let s := dec_nat n in zeros (w - String.length s) ++ s.

(** [datetime.isoformat(sep)]: the fraction is printed only when the
    microsecond field is not zero. *)
Definition isoformat_sep (sep : string) (d : datetime) : string :=
  pad 4 (year d) ++ "-" ++ pad 2 (month d) ++ "-" ++ pad 2 (day d) ++ sep ++
  pad 2 (hour d) ++ ":" ++ pad 2 (minute d) ++ ":" ++ pad 2 (second d) ++
  (if Nat.eqb (microsecond d) 0 then "" else "." ++ pad 6 (microsecond d)).

Definition isoformat (d : datetime) : string := isoformat_sep "T" d.

(** The two builtins that are not reproduced: the [repr]-based [str()] of
    a list or dict, and [<] between two lists. *)
Record Builtins := {
  container_str : value -> string;
  list_lt : list value -> list value -> outcome bool
}.

Definition type_name (v : value) : string :=
  match v with
  | VNone => "NoneType"
  | VBool _ => "bool"
  | VInt _ => "int"
  | VStr _ => "str"
  | VObjectId _ => "ObjectId"
  | VDatetime _ => "datetime.datetime"
  | VList _ => "list"
  | VDict _ => "dict"
  end.

(** [str(v)] *)
Definition py_str (B : Builtins) (v : value) : string :=
  match v with
  | VNone => "None"
  | VBool true => "True"
  | VBool false => "False"
  | VInt n => dec_Z n
  | VStr s => s
  | VObjectId oid => oid
  | VDatetime d => isoformat_sep " " d
  | VList _ | VDict _ => container_str B v
  end.

Definition datetime_fields (d : datetime) : list nat :=
  [year d; month d; day d; hour d; minute d; second d; microsecond d].

Fixpoint lex_ltb (a b : list nat) : bool :=
  match a, b with
  | x :: a', y :: b' => if Nat.ltb x y then true else if Nat.ltb y x then false else lex_ltb a' b'
  | [], _ :: _ => true
  | _, [] => false
  end.

Definition not_supported (a b : value) : exc :=
  TypeError ("'<' not supported between instances of '" ++ type_name a ++
             "' and '" ++ type_name b ++ "'").

Definition as_number (v : value) : option Z :=
  match v with
  | VInt n => Some n
  | VBool b => Some (if b then 1%Z else 0%Z)
  | _ => None
  end.

(** [a < b]: strings by code point, [int] and [bool] as numbers, ObjectIds
    and datetimes among themselves; everything else is a [TypeError]. *)
Definition py_lt (B : Builtins) (a b : value) : outcome bool :=
  match a, b with
  | VStr x, VStr y => Ok (String.ltb x y)
  | VObjectId x, VObjectId y => Ok (String.ltb x y)
  | VDatetime x, VDatetime y => Ok (lex_ltb (datetime_fields x) (datetime_fields y))
  | VList x, VList y => list_lt B x y
  | _, _ =>
      match as_number a, as_number b with
      | Some x, Some y => Ok (Z.ltb x y)
      | _, _ => Raise (not_supported a b)
      end
  end.

(** ** Dict operations *)

Fixpoint dict_get (k : string) (d : dict) : option value :=
  match d with
  | [] => None
  | (k', v) :: d' => if String.eqb k k' then Some v else dict_get k d'
  end.

(** [d[k] = v]: an existing key keeps its position. *)
Fixpoint dict_set (k : string) (v : value) (d : dict) : dict :=
  match d with
  | [] => [(k, v)]
  | (k', v') :: d' =>
      if String.eqb k k' then (k', v) :: d' else (k', v') :: dict_set k v d'
  end.

Definition keys (d : dict) : list string := map fst d.

Definition wf_dict (d : dict) : Prop := NoDup (keys d).

(** [d.get(k, default)] *)
Definition get_default (k : string) (default : value) (d : dict) : value :=
  match dict_get k d with
  | Some v => v
  | None => default
  end.

(** ** [_serialize_doc] *)

(** One iteration of the loop body on the item [(k, v)]. *)
Definition serialize_item (B : Builtins) (out : dict) (kv : string * value) : dict :=
  let '(k, v) := kv in
  if String.eqb k "_id" then dict_set "id" (VStr (py_str B v)) out
  else match v with
       | VDatetime d => dict_set k (VStr (isoformat d)) out
       | _ => dict_set k v out
       end.

Definition _serialize_doc (B : Builtins) (doc : dict) : dict :=
  fold_left (serialize_item B) doc [].

(** ** Sorting: [items.sort(key=..., reverse=True)]

    [list.sort] is stable, also with [reverse=True], and compares keys with
    [<] only; an exception raised by a comparison aborts the sort.  The
    model is a stable insertion sort into descending order.  The pairs it
    compares are the model's own: the interpreter's sort may compare other
    pairs.  Both give the same list whenever no comparison raises.  On two
    items both compare the key of the first with the key of the second;
    from three items on, a failing sort may name another pair of types in
    its [TypeError]. *)

Section Sort.
Variable B : Builtins.
Variable key : dict -> value.

Fixpoint insert_desc (x : dict) (l : list dict) : outcome (list dict) :=
  match l with
  | [] => Ok [x]
  | y :: l' =>
      lt <- py_lt B (key x) (key y) ;;
      if (lt : bool) then (r <- insert_desc x l' ;; Ok (y :: r))
      else Ok (x :: y :: l')
  end.

Fixpoint sort_desc (l : list dict) : outcome (list dict) :=
  match l with
  | [] => Ok []
  | x :: l' => s <- sort_desc l' ;; insert_desc x s
  end.
End Sort.

(** ** Static catalog: [list_services] *)

Definition service_entry (id name : string) (price duration : Z) (desc : string) : dict :=
  [("id", VStr id); ("name", VStr name); ("price", VInt price);
   ("duration", VInt duration); ("desc", VStr desc)].

Definition list_services (_ : unit) : list dict :=
  [ service_entry "cut" "Classic Cut" 120 30 "Precision haircut tailored to your style.";
    service_entry "beard" "Beard Trim" 80 20 "Clean lines and shape with hot towel finish.";
    service_entry "combo" "Cut + Beard" 180 60 "Complete grooming session.";
    service_entry "fade" "Skin Fade" 140 45 "Sharp fade with detailed finish." ].

(** ** The intake model [BookingIn] *)

Record BookingIn := mk_BookingIn {
  name : string;
  phone : string;
  email : option string;
  service : string;
  preferred_date : option string;
  preferred_time : option string;
  notes : option string
}.

Definition opt_value (o : option string) : value :=
  match o with
  | Some s => VStr s
  | None => VNone
  end.

(** [payload.model_dump()] *)
Definition model_dump (p : BookingIn) : dict :=
  [("name", VStr (name p)); ("phone", VStr (phone p)); ("email", opt_value (email p));
   ("service", VStr (service p)); ("preferred_date", opt_value (preferred_date p));
   ("preferred_time", opt_value (preferred_time p)); ("notes", opt_value (notes p))].

(** A required [str] field of the request body. *)
Definition required_str (k : string) (body : dict) : option string :=
  match dict_get k body with
  | Some (VStr s) => Some s
  | _ => None
  end.

(** A [str | None = None] field: absent and null both give [None]. *)
Definition optional_str (k : string) (body : dict) : option (option string) :=
  match dict_get k body with
  | None | Some VNone => Some None
  | Some (VStr s) => Some (Some s)
  | Some _ => None
  end.

(** Validation of a request body against [BookingIn]; keys that are not
    fields of the model are ignored.  [None] is a rejected body. *)
Definition BookingIn_validate (body : dict) : option BookingIn :=
  match required_str "name" body, required_str "phone" body,
        optional_str "email" body, required_str "service" body,
        optional_str "preferred_date" body, optional_str "preferred_time" body,
        optional_str "notes" body with
  | Some n, Some p, Some e, Some s, Some d, Some t, Some o =>
      Some (mk_BookingIn n p e s d t o)
  | _, _, _, _, _, _, _ => None
  end.

(** ** Exceptions as strings *)

(** [str(e)] *)
Definition exc_str (e : exc) : string :=
  match e with
  | ImportError m | ValidationError m | TypeError m | Exception m => m
  | HTTPException c d => dec_Z c ++ ": " ++ d
  end.

(** [except Exception as e: raise HTTPException(status_code=500, detail=str(e))] *)
Definition to_http_500 {A} (r : outcome A) : outcome A :=
  match r with
  | Ok a => Ok a
  | Raise e => Raise (HTTPException 500 (exc_str e))
  end.

(** ** Booking handlers

    [W] is the state of the document database.  The names imported inside
    the handlers come from modules outside this file; each import either
    raises or yields the function. *)

Section Bookings.
Variable B : Builtins.
Variable W : Type.

Record Imports := {
  import_create_document : outcome (string -> dict -> W -> outcome value * W);
  import_get_documents : outcome (string -> dict -> nat -> W -> outcome (list dict));
  import_Booking : outcome (dict -> outcome dict)
}.

Variable env : Imports.

(** The body of the [try] block of [create_booking]. *)
Definition create_booking_body (payload : BookingIn) (w : W) : outcome value * W :=
  match import_create_document env with
  | Raise e => (Raise e, w)
  | Ok create_document =>
      match import_Booking env with
      | Raise e => (Raise e, w)
      | Ok BookingSchema =>
          match BookingSchema (model_dump payload) with
          | Raise e => (Raise e, w)
          | Ok booking =>
              let '(r, w') := create_document "booking" booking w in
              (inserted_id <- r ;;
               Ok (VDict [("status", VStr "ok"); ("id", inserted_id)]), w')
          end
      end
  end.

Definition create_booking (payload : BookingIn) (w : W) : outcome value * W :=
  let '(r, w') := create_booking_body payload w in (to_http_500 r, w').

(** The route [POST /api/bookings]: the body is validated against
    [BookingIn] before the handler runs; [None] is a rejected request. *)
Definition post_api_bookings (body : dict) (w : W) : option (outcome value * W) :=
  match BookingIn_validate body with
  | Some payload => Some (create_booking payload w)
  | None => None
  end.

Definition sort_key (x : dict) : value := get_default "created_at" (VStr "") x.

Definition list_bookings_body (w : W) : outcome value :=
  get_documents <- import_get_documents env ;;
  docs <- get_documents "booking" [] 200 w ;;
  let items := map (_serialize_doc B) docs in
  items <- sort_desc B sort_key items ;;
  Ok (VDict [("items", VList (map VDict items));
             ("count", VInt (Z.of_nat (List.length items)))]).

Definition list_bookings (w : W) : outcome value :=
  to_http_500 (list_bookings_body w).
End Bookings.

Arguments import_create_document {W} _.
Arguments import_get_documents {W} _.
Arguments import_Booking {W} _.
Arguments create_booking_body {W} env payload w.
Arguments create_booking {W} env payload w.
Arguments post_api_bookings {W} env body w.
Arguments list_bookings_body B {W} env w.
Arguments list_bookings B {W} env w.

(** ** Diagnostics: [test_database] *)

(** What [hasattr(db, 'name')] followed by [db.name] finds. *)
Inductive attribute :=
| NoAttribute
| Attribute (v : value)
| AttributeRaises (e : exc).

Record DbHandle (W : Type) := {
  db_name : attribute;
  list_collection_names : W -> outcome (list string)
}.
Arguments db_name {W} _.
Arguments list_collection_names {W} _ _.

(** UTF-8 continuation bytes are [10xxxxxx]. *)
Definition is_continuation (c : ascii) : bool :=
  let n := nat_of_ascii c in (128 <=? n)%nat && (n <? 192)%nat.

(** [s[:n]]: the first [n] characters (code points) of [s]. *)
Fixpoint take_chars (n : nat) (s : string) : string :=
  match s with
  | EmptyString => EmptyString
  | String c s' =>
      if is_continuation c then String c (take_chars n s')
      else match n with
           | O => EmptyString
           | S n' => String c (take_chars n' s')
           end
  end.

(** [bool(os.getenv(name))]: unset and empty are both false. *)
Definition getenv_truthy (getenv : string -> option string) (v : string) : bool :=
  match getenv v with
  | None | Some EmptyString => false
  | Some _ => true
  end.

Definition set_or_not (b : bool) : value :=
  VStr (if b then "✅ Set" else "❌ Not Set").

Definition initial_response : dict :=
  [("backend", VStr "✅ Running");
   ("database", VStr "❌ Not Available");
   ("database_url", VNone);
   ("database_name", VNone);
   ("connection_status", VStr "Not Connected");
   ("collections", VList [])].

Section Diagnostics.
Variable W : Type.
Variable import_db : outcome (option (DbHandle W)).
Variable getenv : string -> option string.

(** The inner [try]: its handler swallows every exception. *)
Definition probe_collections (db : DbHandle W) (w : W) (response : dict) : dict :=
  match list_collection_names db w with
  | Ok collections =>
      let response := dict_set "collections" (VList (map VStr (firstn 10 collections))) response in
      dict_set "database" (VStr "✅ Connected & Working") response
  | Raise e =>
      dict_set "database"
        (VStr ("⚠️  Connected but Error: " ++ take_chars 50 (exc_str e))) response
  end.

(** The outer [try] block: the response as mutated so far, and the
    exception that left the block, if any. *)
Definition test_database_body (w : W) (response : dict) : outcome unit * dict :=
  match import_db with
  | Raise e => (Raise e, response)
  | Ok (Some db) =>
      let response := dict_set "database" (VStr "✅ Available") response in
      let response :=
        dict_set "database_url" (set_or_not (getenv_truthy getenv "DATABASE_URL")) response in
      match db_name db with
      | AttributeRaises e => (Raise e, response)
      | a =>
          let response :=
            dict_set "database_name"
              (match a with Attribute v => v | _ => VStr "✅ Connected" end) response in
          let response := dict_set "connection_status" (VStr "Connected") response in
          (Ok tt, probe_collections db w response)
      end
  | Ok None =>
      (Ok tt, dict_set "database" (VStr "⚠️  Available but not initialized") response)
  end.

Definition test_database (w : W) : outcome dict :=
  let '(r, response) := test_database_body w initial_response in
  let response :=
    match r with
    | Ok _ => response
    | Raise (ImportError _) =>
        dict_set "database" (VStr "❌ Database module not found") response
    | Raise e =>
        dict_set "database" (VStr ("❌ Error: " ++ take_chars 50 (exc_str e))) response
    end in
  let response :=
    dict_set "database_url" (set_or_not (getenv_truthy getenv "DATABASE_URL")) response in
  let response :=
    dict_set "database_name" (set_or_not (getenv_truthy getenv "DATABASE_NAME")) response in
  Ok response.
End Diagnostics.

Arguments test_database {W} import_db getenv w.

(** ** The collaborators outside this file, from the specification *)

(** Modelled from the spec: the state of the document store behind the
    store adapter ([database.py], not part of the sources): whether the
    store can be reached, and the records of each collection in the order
    a read returns them. *)
Record Store := {
  available : bool;
  documents : string -> list dict
}.

(** Modelled from the spec: what the specification leaves to the store and
    to the schema validator: the time of the next insert, the canonical
    Booking rules (a message when they are violated) and the meaning of a
    read filter. *)
Record Policy := {
  clock : Store -> datetime;
  booking_rules : dict -> option string;
  matches : dict -> dict -> bool
}.

(** Modelled from the spec: the opaque identifier the store assigns on the
    next insert into a collection: the number of records the collection
    holds, written on 24 digits.  Records are never removed, so no two
    records of a collection get the same identifier. *)
Definition next_id (collection : string) (st : Store) : string :=
  pad 24 (List.length (documents st collection)).

(** Modelled from the spec: the record as persisted, the submitted fields
    plus the creation timestamp set at persistence time and the identifier
    assigned by the store. *)
Definition stored_document (id : string) (now : datetime) (record : dict) : dict :=
  dict_set "_id" (VObjectId id) (dict_set "created_at" (VDatetime now) record).

(** Modelled from the spec: one record appended to a collection. *)
Definition add_document (collection : string) (doc : dict) (st : Store) : Store :=
  {| available := available st;
     documents := fun c =>
       if String.eqb c collection then documents st c ++ [doc] else documents st c |}.

(** Modelled from the spec: [create_document(collection, record) -> id] of
    the store adapter: one record inserted, the identifier assigned by the
    store returned as a string; an unreachable store fails. *)
Definition store_create_document (P : Policy) (collection : string) (record : dict)
    (st : Store) : outcome value * Store :=
  if available st then
    let id := next_id collection st in
    (Ok (VStr id), add_document collection (stored_document id (clock P st) record) st)
  else (Raise (Exception "Database not available"), st).

(** Modelled from the spec: [get_documents(collection, filter, limit)] of
    the store adapter: up to [limit] records of the collection that match
    the filter. *)
Definition store_get_documents (P : Policy) (collection : string) (filter_ : dict)
    (limit : nat) (st : Store) : outcome (list dict) :=
  if available st then
    Ok (firstn limit (filter (matches P filter_) (documents st collection)))
  else Raise (Exception "Database not available").

(** Modelled from the spec: the canonical Booking schema ([schemas.py], not
    part of the sources): the intake fields, accepted as submitted or
    rejected with a validation error. *)
Definition BookingSchema (P : Policy) (kwargs : dict) : outcome dict :=
  match booking_rules P kwargs with
  | Some msg => Raise (ValidationError msg)
  | None => Ok kwargs
  end.

(** Modelled from the spec: the imports of the handlers, when both modules
    load. *)
Definition spec_imports (P : Policy) : Imports Store :=
  {| import_create_document := Ok (store_create_document P);
     import_get_documents := Ok (store_get_documents P);
     import_Booking := Ok (BookingSchema P) |}.


(** ** Definitions used to state the properties *)

(** The key under which [_serialize_doc] writes the item of key [k]. *)
Definition out_key (k : string) : string :=
  if String.eqb k "_id" then "id" else k.

(** A value as [_serialize_doc] writes it under its own key. *)
Definition jsonable (v : value) : value :=
  match v with
  | VDatetime d => VStr (isoformat d)
  | _ => v
  end.

Definition out_value (B : Builtins) (k : string) (v : value) : value :=
  if String.eqb k "_id" then VStr (py_str B v) else jsonable v.

(** The last value written under [k] while looping over [l], if any. *)
Fixpoint last_write (B : Builtins) (k : string) (l : dict) : option value :=
  match l with
  | [] => None
  | (k', v') :: l' =>
      match last_write B k l' with
      | Some v => Some v
      | None => if String.eqb k (out_key k') then Some (out_value B k' v') else None
      end
  end.

(** The sort key of an item when it is a string. *)
Definition created_key (x : dict) : string :=
  match sort_key x with
  | VStr s => s
  | _ => ""
  end.

(** [x] may stand before [y] in a list sorted by [created_at] descending. *)
Definition desc (x y : dict) : Prop := String.ltb (created_key x) (created_key y) = false.







(** The body of the response of [list_bookings]. *)
Definition bookings_response (items : list dict) : value :=
  VDict [("items", VList (map VDict items));
         ("count", VInt (Z.of_nat (List.length items)))].

(** The keys of a record that stay keys of its serialization. *)
Definition not__id (k : string) : bool := negb (String.eqb k "_id").

Definition booking_fields : list string :=
  ["name"; "phone"; "email"; "service"; "preferred_date"; "preferred_time"; "notes"].

Definition diagnostics_keys : list string :=
  ["backend"; "database"; "database_url"; "database_name";
   "connection_status"; "collections"].

(** The four places where the [try] block of [create_booking] can fail:
    either import, the canonical schema, the insert.  [creation_fails env
    payload w e w'] holds when the block raises [e] from store state [w],
    leaving the store in state [w']. *)
Inductive creation_fails {W : Type} (env : Imports W) (payload : BookingIn) (w : W) :
  exc -> W -> Prop :=
| fails_import_database e :
    import_create_document env = Raise e ->
    creation_fails env payload w e w
| fails_import_schemas create_document e :
    import_create_document env = Ok create_document ->
    import_Booking env = Raise e ->
    creation_fails env payload w e w
| fails_validation create_document schema e :
    import_create_document env = Ok create_document ->
    import_Booking env = Ok schema ->
    schema (model_dump payload) = Raise e ->
    creation_fails env payload w e w
| fails_persistence create_document schema booking e w' :
    import_create_document env = Ok create_document ->
    import_Booking env = Ok schema ->
    schema (model_dump payload) = Ok booking ->
    create_document "booking" booking w = (Raise e, w') ->
    creation_fails env payload w e w'.

(** The successful response of [create_booking]. *)
Definition created_response (inserted_id : value) : value :=
  VDict [("status", VStr "ok"); ("id", inserted_id)].

(** A field of a returned mapping. *)
Definition field (k : string) (r : outcome dict) : option value :=
  match r with
  | Ok d => dict_get k d
  | Raise _ => None
  end.

(** ** Schema export: [get_schema] *)

(** What [import schemas as s] gives: each [s.<Model>.model_json_schema()]
    either raises or yields a JSON schema. *)
Record SchemasModule := {
  Booking_json_schema : outcome value;
  User_json_schema : outcome value;
  Product_json_schema : outcome value
}.

(** The dict display is evaluated in the order of its entries; the handler
    of the [try] returns instead of raising. *)
Definition get_schema (import_schemas : outcome SchemasModule) : outcome value :=
  let body :=
    s <- import_schemas ;;
    booking <- Booking_json_schema s ;;
    user <- User_json_schema s ;;
    product <- Product_json_schema s ;;
    Ok (VDict [("booking", booking); ("user", user); ("product", product)]) in
  match body with
  | Ok v => Ok v
  | Raise e => Ok (VDict [("error", VStr (exc_str e))])
  end.

(** ** More definitions used to state properties *)

(** The entry [_serialize_doc] writes for an item. *)
Definition serialize_entry (B : Builtins) (kv : string * value) : string * value :=
  (out_key (fst kv), out_value B (fst kv) (snd kv)).

Definition is_datetime (v : value) : bool :=
  match v with
  | VDatetime _ => true
  | _ => false
  end.

(** An entry a serialized record can hold: not under [_id], not a datetime. *)
Definition json_entry (kv : string * value) : Prop :=
  fst kv <> "_id" /\ is_datetime (snd kv) = false.

(** [len(s)]: the number of characters (code points) of [s]. *)
Fixpoint char_count (s : string) : nat :=
  match s with
  | EmptyString => O
  | String c s' => if is_continuation c then char_count s' else S (char_count s')
  end.

(** Whether [s] begins in the middle of a character. *)
Definition starts_inside_character (s : string) : bool :=
  match s with
  | EmptyString => false
  | String c _ => is_continuation c
  end.

(** [shown] is [s[:n]]: a prefix of [s], cut between two characters, that
    holds [n] characters, or all of them when [s] has fewer. *)
Definition is_slice (n : nat) (s shown : string) : Prop :=
  exists rest : string,
    s = (shown ++ rest)%string /\
    char_count shown = Nat.min n (char_count s) /\
    starts_inside_character rest = false.

(** A body value that [BookingIn] takes for an optional field. *)
Definition optional_ok (k : string) (body : dict) : Prop :=
  match dict_get k body with
  | None | Some VNone | Some (VStr _) => True
  | Some _ => False
  end.

Definition required_fields : list string := ["name"; "phone"; "service"].

Definition optional_fields : list string :=
  ["email"; "preferred_date"; "preferred_time"; "notes"].

(** Whether the [try] block of [test_database] got hold of a handle: the
    import gave one and looking up its [name] did not raise. *)
Definition handle_reached {W : Type} (import_db : outcome (option (DbHandle W))) : bool :=
  match import_db with
  | Ok (Some db) =>
      match db_name db with
      | AttributeRaises _ => false
      | _ => true
      end
  | _ => false
  end.

Definition is_import_error (e : exc) : bool :=
  match e with
  | ImportError _ => true
  | _ => false
  end.

(** The first step of the [try] block of [get_schema] that raises. *)
Definition schema_failure (import_schemas : outcome SchemasModule) : option exc :=
  match import_schemas with
  | Raise e => Some e
  | Ok s =>
      match Booking_json_schema s, User_json_schema s, Product_json_schema s with
      | Raise e, _, _ => Some e
      | Ok _, Raise e, _ => Some e
      | Ok _, Ok _, Raise e => Some e
      | Ok _, Ok _, Ok _ => None
      end
  end.

(** ** Examples of records *)

(** Builtins for examples whose records hold no list or dict. *)
Definition flat_builtins : Builtins :=
  {| container_str := fun _ => "";
     list_lt := fun _ _ => Raise (TypeError "") |}.

Definition march_5 : datetime := mk_datetime 2024 3 5 9 30 0 0.

Definition booking_doc : dict :=
  [("_id", VObjectId "65e6e0a1c2b3d4e5f6a7b8c9"); ("name", VStr "Amine");
   ("phone", VStr "0612345678"); ("service", VStr "cut");
   ("created_at", VDatetime march_5)].

Definition clash_doc : dict :=
  [("_id", VObjectId "65e6e0a1c2b3d4e5f6a7b8c9"); ("id", VInt 7)].

Definition missing_doc : dict :=
  [("_id", VObjectId "65e6e0a1c2b3d4e5f6a7b8c1"); ("name", VStr "Amine")].


Definition int_created_doc : dict :=
  [("_id", VObjectId "65e6e0a1c2b3d4e5f6a7b8c3"); ("name", VStr "Chakib");
   ("created_at", VInt 5)].

(** A policy for the examples: the rules ask for a name. *)
Definition example_policy : Policy :=
  {| clock := fun _ => march_5;
     booking_rules := fun kwargs =>
       match dict_get "name" kwargs with
       | Some (VStr EmptyString) => Some "name: String should have at least 1 character"
       | _ => None
       end;
     matches := fun _ _ => true |}.

Definition store_of (docs : list dict) : Store :=
  {| available := true;
     documents := fun c => if String.eqb c "booking" then docs else [] |}.

Definition amine : BookingIn :=
  mk_BookingIn "Amine" "0612345678" None "cut" None None None.

Definition badr : BookingIn :=
  mk_BookingIn "Badr" "0698765432" (Some "badr@example.com") "fade"
    (Some "2024-03-09") (Some "15:00") None.

(** The store after one booking. *)
Definition one_booking_store : Store :=
  add_document "booking"
    (stored_document "000000000000000000000000" march_5 (model_dump amine))
    (store_of []).

(** Two environments in which [DATABASE_NAME] is set. *)
Definition env_empty_name (v : string) : option string :=
  if String.eqb v "DATABASE_NAME" then Some "" else None.

Definition env_named (v : string) : option string :=
  if String.eqb v "DATABASE_NAME" then Some "barbershop" else None.

(** A process without the [database] module. *)
Definition no_database : outcome (option (DbHandle unit)) :=
  Raise (ImportError "No module named 'database'").

(** * Properties *)

(** ** Dicts *)

Lemma dict_get_set_eq k v d : dict_get k (dict_set k v d) = Some v.
Proof.
  induction d as [|[k' v'] d IH]; simpl.
  - now rewrite String.eqb_refl.
  - destruct (String.eqb k k') eqn:E; simpl; rewrite E; auto.
Qed.

Lemma dict_get_set_neq k k' v d :
  k <> k' -> dict_get k (dict_set k' v d) = dict_get k d.
Proof.
  intros Hne. induction d as [|[k0 v0] d IH]; simpl.
  - apply String.eqb_neq in Hne. now rewrite Hne.
  - destruct (String.eqb k' k0) eqn:E; simpl.
    + apply String.eqb_eq in E. subst k0.
      apply String.eqb_neq in Hne. now rewrite Hne.
    + now rewrite IH.
Qed.

Lemma keys_set k v d k0 :
  In k0 (keys (dict_set k v d)) <-> k0 = k \/ In k0 (keys d).
Proof.
  induction d as [|[k' v'] d IH]; simpl.
  - intuition.
  - destruct (String.eqb k k') eqn:E; simpl.
    + apply String.eqb_eq in E. subst. intuition.
    + rewrite IH. intuition.
Qed.

Lemma wf_dict_set k v d : wf_dict d -> wf_dict (dict_set k v d).
Proof.
  unfold wf_dict. induction d as [|[k' v'] d IH]; simpl; intros H.
  - constructor; [intros []|constructor].
  - inversion H as [|? ? Hn Hd]; subst.
    destruct (String.eqb k k') eqn:E; simpl.
    + now constructor.
    + constructor; auto.
      fold (keys (dict_set k v d)). rewrite keys_set.
      intros [->|Hin]; [|contradiction].
      now rewrite String.eqb_refl in E.
Qed.

Lemma dict_get_none k d : dict_get k d = None <-> ~ In k (keys d).
Proof.
  induction d as [|[k' v'] d IH]; simpl.
  - intuition.
  - destruct (String.eqb k k') eqn:E.
    + apply String.eqb_eq in E. subst. split; [discriminate|]. intros H. exfalso. auto.
    + apply String.eqb_neq in E. rewrite IH. intuition.
Qed.

Lemma dict_get_in k v d : dict_get k d = Some v -> In (k, v) d.
Proof.
  induction d as [|[k' v'] d IH]; simpl; [discriminate|].
  destruct (String.eqb k k') eqn:E.
  - apply String.eqb_eq in E. intros [= ->]. subst. now left.
  - auto.
Qed.

Lemma in_keys k v (d : dict) : In (k, v) d -> In k (keys d).
Proof. intros H. apply (in_map fst) in H. exact H. Qed.

Lemma in_dict_get k v d : wf_dict d -> In (k, v) d -> dict_get k d = Some v.
Proof.
  unfold wf_dict. induction d as [|[k' v'] d IH]; simpl; intros Hwf [].
  - injection H as -> ->. now rewrite String.eqb_refl.
  - inversion Hwf; subst. destruct (String.eqb k k') eqn:E; auto.
    apply String.eqb_eq in E. subst. exfalso. eauto using in_keys.
Qed.

(** ** Serialization *)

Lemma serialize_item_eq B out k v :
  serialize_item B out (k, v) = dict_set (out_key k) (out_value B k v) out.
Proof.
  unfold serialize_item, out_key, out_value.
  destruct (String.eqb k "_id"); [reflexivity|]. now destruct v.
Qed.

Lemma out_key_not_id k : out_key k <> "_id".
Proof.
  unfold out_key. destruct (String.eqb k "_id") eqn:E; [discriminate|].
  now apply String.eqb_neq.
Qed.

Lemma out_key_other k : k <> "_id" -> out_key k = k.
Proof. intros H. unfold out_key. apply String.eqb_neq in H. now rewrite H. Qed.

(** What the loop leaves under [k]: the last write, or what was there. *)
Lemma fold_serialize_get B k l : forall acc,
  dict_get k (fold_left (serialize_item B) l acc) =
  match last_write B k l with
  | Some v => Some v
  | None => dict_get k acc
  end.
Proof.
  induction l as [|[k' v'] l IH]; intros acc; cbn [fold_left last_write]; [reflexivity|].
  rewrite IH, serialize_item_eq.
  destruct (last_write B k l); [reflexivity|].
  destruct (String.eqb k (out_key k')) eqn:E.
  - apply String.eqb_eq in E. subst. apply dict_get_set_eq.
  - apply String.eqb_neq in E. now apply dict_get_set_neq.
Qed.

Lemma serialize_get B k doc :
  dict_get k (_serialize_doc B doc) = last_write B k doc.
Proof.
  unfold _serialize_doc. rewrite fold_serialize_get.
  now destruct (last_write B k doc).
Qed.

Lemma last_write_none B k l :
  (forall k', In k' (keys l) -> out_key k' <> k) -> last_write B k l = None.
Proof.
  induction l as [|[k' v'] l IH]; simpl; intros H; [reflexivity|].
  rewrite IH by auto.
  destruct (String.eqb k (out_key k')) eqn:E; [|reflexivity].
  apply String.eqb_eq in E. exfalso. apply (H k'); auto.
Qed.

(** With a single source for [k] among the keys, its value is what is
    written. *)
Lemma last_write_unique B k k' v' l :
  In (k', v') l -> wf_dict l -> out_key k' = k ->
  (forall k0, In k0 (keys l) -> out_key k0 = k -> k0 = k') ->
  last_write B k l = Some (out_value B k' v').
Proof.
  unfold wf_dict. induction l as [|[k0 v0] l IH]; simpl; intros Hin Hwf Hk Huniq; [easy|].
  inversion Hwf as [|? ? Hn Hd]; subst.
  destruct Hin as [Heq|Hin].
  - injection Heq as -> ->.
    rewrite last_write_none, String.eqb_refl; [reflexivity|].
    intros k1 Hk1 Hout. apply Hn. now rewrite <- (Huniq k1) by auto.
  - now rewrite IH by auto.
Qed.

Lemma serialize_other_key B k doc :
  wf_dict doc -> k <> "_id" -> k <> "id" ->
  dict_get k (_serialize_doc B doc) = option_map jsonable (dict_get k doc).
Proof.
  intros Hwf H1 H2. rewrite serialize_get.
  assert (Hsrc : forall k0, out_key k0 = k -> k0 = k).
  { intros k0. unfold out_key. destruct (String.eqb k0 "_id"); congruence. }
  destruct (dict_get k doc) as [v|] eqn:G; simpl.
  - rewrite (last_write_unique B k k v); auto using dict_get_in, out_key_other.
    unfold out_value. apply String.eqb_neq in H1. now rewrite H1.
  - apply last_write_none. intros k' Hin Hk. apply Hsrc in Hk. subst.
    now apply dict_get_none in G.
Qed.

Lemma serialize_no__id B doc : dict_get "_id" (_serialize_doc B doc) = None.
Proof.
  rewrite serialize_get. apply last_write_none. intros. apply out_key_not_id.
Qed.

Lemma serialize_id_from__id B doc v :
  wf_dict doc -> dict_get "_id" doc = Some v -> dict_get "id" doc = None ->
  dict_get "id" (_serialize_doc B doc) = Some (VStr (py_str B v)).
Proof.
  intros Hwf Hid Hno. rewrite serialize_get.
  rewrite (last_write_unique B "id" "_id" v); auto using dict_get_in.
  intros k0 Hin. unfold out_key.
  destruct (String.eqb k0 "_id") eqn:E; [now rewrite String.eqb_eq in E|].
  intros ->. now apply dict_get_none in Hno.
Qed.

Lemma serialize_id_from_id B doc v :
  wf_dict doc -> dict_get "_id" doc = None -> dict_get "id" doc = Some v ->
  dict_get "id" (_serialize_doc B doc) = Some (jsonable v).
Proof.
  intros Hwf Hno Hid. rewrite serialize_get.
  rewrite (last_write_unique B "id" "id" v); auto using dict_get_in.
  intros k0 Hin. unfold out_key.
  destruct (String.eqb k0 "_id") eqn:E; [|auto].
  apply String.eqb_eq in E. subst. now apply dict_get_none in Hno.
Qed.

Lemma fold_serialize_keys B l : forall acc,
  wf_dict acc ->
  wf_dict (fold_left (serialize_item B) l acc) /\
  forall k, In k (keys (fold_left (serialize_item B) l acc)) <->
            In k (keys acc) \/ In k (map out_key (keys l)).
Proof.
  induction l as [|[k' v'] l IH]; intros acc Hwf; cbn [fold_left].
  - split; [assumption|]. simpl. intuition.
  - rewrite serialize_item_eq.
    destruct (IH (dict_set (out_key k') (out_value B k' v') acc)) as [Hw Hk].
    { now apply wf_dict_set. }
    split; [assumption|].
    intros k. rewrite Hk, keys_set. simpl. intuition.
Qed.

Lemma serialize_wf B doc : wf_dict (_serialize_doc B doc).
Proof. apply fold_serialize_keys. constructor. Qed.

Lemma serialize_keys B doc k :
  In k (keys (_serialize_doc B doc)) <-> In k (map out_key (keys doc)).
Proof.
  unfold _serialize_doc.
  destruct (fold_serialize_keys B doc []) as [_ H]; [constructor|].
  rewrite H. simpl. intuition.
Qed.

Lemma filter_out_absent (l : list string) :
  ~ In "_id" l -> filter not__id l = l.
Proof.
  induction l as [|k l IH]; simpl; intros Hn; [reflexivity|].
  unfold not__id at 1. destruct (String.eqb_spec k "_id") as [->|Hne]; simpl.
  - exfalso. apply Hn. now left.
  - f_equal. apply IH. intros H. apply Hn. now right.
Qed.

Lemma filter_out_length (l : list string) :
  NoDup l -> In "_id" l -> S (List.length (filter not__id l)) = List.length l.
Proof.
  induction l as [|k l IH]; simpl; intros Hnd Hin; [contradiction|].
  inversion Hnd as [|? ? Hn Hd]; subst. unfold not__id at 1.
  destruct (String.eqb_spec k "_id") as [->|Hne]; simpl.
  - now rewrite filter_out_absent.
  - f_equal. apply IH; [assumption|].
    destruct Hin as [->|]; [contradiction|assumption].
Qed.

(** With both [_id] and [id] among the keys, the output keys are the input
    keys without [_id]. *)
Lemma serialize_collision_length B doc :
  wf_dict doc -> In "_id" (keys doc) -> In "id" (keys doc) ->
  S (List.length (_serialize_doc B doc)) = List.length doc.
Proof.
  intros Hwf H_id Hid.
  rewrite <- (length_map fst doc), <- (length_map fst (_serialize_doc B doc)).
  fold (keys doc). fold (keys (_serialize_doc B doc)).
  rewrite <- (filter_out_length (keys doc)) by assumption. f_equal.
  apply Nat.le_antisymm; apply NoDup_incl_length.
  - apply serialize_wf.
  - intros k Hk. apply serialize_keys, in_map_iff in Hk.
    destruct Hk as (k' & <- & Hk'). apply filter_In. unfold out_key, not__id.
    destruct (String.eqb k' "_id") eqn:E; simpl; auto.
    split; [assumption|]. now rewrite E.
  - now apply NoDup_filter.
  - intros k Hk. apply filter_In in Hk. destruct Hk as [Hk Hne].
    apply serialize_keys, in_map_iff. exists k. split; [|assumption].
    unfold not__id in Hne. unfold out_key.
    now destruct (String.eqb k "_id").
Qed.

Lemma last_write_cases B k l v :
  last_write B k l = Some v ->
  exists k' v', In (k', v') l /\ out_key k' = k /\ v = out_value B k' v'.
Proof.
  induction l as [|[k0 v0] l IH]; simpl; [discriminate|].
  destruct (last_write B k l) as [u|].
  - intros [= ->]. destruct IH as (k' & v' & ? & ? & ?); [reflexivity|].
    exists k', v'. auto.
  - destruct (String.eqb k (out_key k0)) eqn:E; [|discriminate].
    apply String.eqb_eq in E. intros [= <-]. exists k0, v0. auto.
Qed.

(** ** Examples of records *)

Ltac distinct_keys :=
  unfold wf_dict; simpl;
  repeat (constructor; [simpl; intuition discriminate|]); constructor.

Lemma booking_doc_wf : wf_dict booking_doc.
Proof. distinct_keys. Qed.

Lemma clash_doc_wf : wf_dict clash_doc.
Proof. distinct_keys. Qed.

Example serialize_booking_doc :
  _serialize_doc flat_builtins booking_doc =
  [("id", VStr "65e6e0a1c2b3d4e5f6a7b8c9"); ("name", VStr "Amine");
   ("phone", VStr "0612345678"); ("service", VStr "cut");
   ("created_at", VStr "2024-03-05T09:30:00")].
Proof. reflexivity. Qed.

(** ** The serializer: claims C1 and C10 *)

(** C1, as amended.  Serialization is a total function: it returns a dict
    for every record.  In the dict returned for a well-formed record,
    every key other than [_id] and [id] holds the ISO-8601 string of its
    datetime value, or its value unchanged when that is not a datetime, and
    a key absent from the record stays absent; [_id] is not a key; when the
    record has [_id] and no [id], [id] holds the stringified [_id]; when it
    has [id] and no [_id], [id] is treated as any other key. *)
Theorem serialize_doc_conversion (B : Builtins) (doc : dict) :
  wf_dict doc ->
  (forall k d, k <> "_id" -> k <> "id" ->
     dict_get k doc = Some (VDatetime d) -> dict_get k (_serialize_doc B doc) = Some (VStr (isoformat d))) /\
  (forall k v, k <> "_id" -> k <> "id" -> (forall d, v <> VDatetime d) ->
     dict_get k doc = Some v -> dict_get k (_serialize_doc B doc) = Some v) /\
  (forall k, k <> "id" -> dict_get k doc = None -> dict_get k (_serialize_doc B doc) = None) /\
  dict_get "_id" (_serialize_doc B doc) = None /\
  (forall v, dict_get "_id" doc = Some v -> dict_get "id" doc = None ->
     dict_get "id" (_serialize_doc B doc) = Some (VStr (py_str B v))) /\
  (forall v, dict_get "id" doc = Some v -> dict_get "_id" doc = None ->
     dict_get "id" (_serialize_doc B doc) = Some (jsonable v)).
Proof.
  intros Hwf. repeat split.
  - intros k d H1 H2 G. rewrite serialize_other_key by assumption. now rewrite G.
  - intros k v H1 H2 Hnd G. rewrite serialize_other_key by assumption.
    rewrite G. simpl. f_equal. destruct v; try reflexivity. now destruct (Hnd d).
  - intros k Hk G.
    destruct (String.eqb_spec k "_id") as [->|Hne]; [apply serialize_no__id|].
    rewrite serialize_other_key by assumption. now rewrite G.
  - apply serialize_no__id.
  - intros v G1 G2. now apply serialize_id_from__id.
  - intros v G1 G2. now apply serialize_id_from_id.
Qed.

Lemma serialize_doc_conversion_witness :
  wf_dict booking_doc /\
  dict_get "id" (_serialize_doc flat_builtins booking_doc)
    = Some (VStr "65e6e0a1c2b3d4e5f6a7b8c9") /\
  dict_get "created_at" (_serialize_doc flat_builtins booking_doc)
    = Some (VStr "2024-03-05T09:30:00").
Proof.
  pose proof (serialize_doc_conversion flat_builtins booking_doc booking_doc_wf) as H.
  destruct H as (Hdt & _ & _ & _ & Hid & _).
  split; [exact booking_doc_wf|]. split.
  - apply (Hid (VObjectId "65e6e0a1c2b3d4e5f6a7b8c9")); reflexivity.
  - apply (Hdt "created_at" march_5); [discriminate|discriminate|reflexivity].
Defined.

(** C1 as stated fails on a record that has both [_id] and [id]: the
    output [id] is the value of [id], not the stringified [_id]. *)
Lemma serialize_doc_id_not_stringified :
  wf_dict clash_doc /\
  dict_get "_id" clash_doc = Some (VObjectId "65e6e0a1c2b3d4e5f6a7b8c9") /\
  _serialize_doc flat_builtins clash_doc = [("id", VInt 7)] /\
  dict_get "id" (_serialize_doc flat_builtins clash_doc)
    <> Some (VStr (py_str flat_builtins (VObjectId "65e6e0a1c2b3d4e5f6a7b8c9"))).
Proof.
  split; [exact clash_doc_wf|]. repeat split. discriminate.
Qed.

(** C10.  [_id] is never a key of the serialized record; for a record with
    both [_id] and [id], the output [id] holds one of the two values (the
    stringified [_id] or the converted [id]) and the output has exactly one
    entry fewer than the record. *)
Theorem serialize_doc_key_collision (B : Builtins) (doc : dict) :
  wf_dict doc ->
  dict_get "_id" (_serialize_doc B doc) = None /\ ~ In "_id" (keys (_serialize_doc B doc)) /\
  forall a b, dict_get "_id" doc = Some a -> dict_get "id" doc = Some b ->
    (dict_get "id" (_serialize_doc B doc) = Some (VStr (py_str B a)) \/
     dict_get "id" (_serialize_doc B doc) = Some (jsonable b)) /\
    S (List.length (_serialize_doc B doc)) = List.length doc /\
    (List.length (_serialize_doc B doc) < List.length doc)%nat.
Proof.
  intros Hwf.
  split; [apply serialize_no__id|].
  split; [apply dict_get_none, serialize_no__id|].
  intros a b Ga Gb.
  assert (Hlen : S (List.length (_serialize_doc B doc)) = List.length doc).
  { apply serialize_collision_length; eauto using in_keys, dict_get_in. }
  split; [|split; [exact Hlen|lia]].
  destruct (dict_get "id" (_serialize_doc B doc)) as [v|] eqn:G.
  - rewrite serialize_get in G. apply last_write_cases in G.
    destruct G as (k' & v' & Hin & Hk & ->).
    apply in_dict_get in Hin; [|assumption].
    unfold out_key in Hk. unfold out_value.
    destruct (String.eqb k' "_id") eqn:E.
    + apply String.eqb_eq in E. subst. left. congruence.
    + subst. right. congruence.
  - exfalso. apply dict_get_none in G. apply G, serialize_keys, in_map_iff.
    exists "id". split; [reflexivity|]. eauto using in_keys, dict_get_in.
Qed.

Lemma serialize_doc_key_collision_witness :
  wf_dict clash_doc /\
  S (List.length (_serialize_doc flat_builtins clash_doc)) = List.length clash_doc.
Proof.
  split; [exact clash_doc_wf|].
  destruct (serialize_doc_key_collision flat_builtins clash_doc clash_doc_wf)
    as (_ & _ & H).
  apply (H (VObjectId "65e6e0a1c2b3d4e5f6a7b8c9") (VInt 7)); reflexivity.
Defined.

(** ** The order of strings *)






(** ** The sort *)
















(** ** Listing: claim C2 *)





Example list_bookings_missing_goes_last :
  list_bookings flat_builtins (spec_imports example_policy)
    (store_of [missing_doc; booking_doc]) =
  Ok (bookings_response [_serialize_doc flat_builtins booking_doc;
                         _serialize_doc flat_builtins missing_doc]).
Proof. reflexivity. Qed.


(** A [created_at] that is not a string makes the comparison with the
    default key fail, and the listing with it. *)
Example list_bookings_int_created_at :
  list_bookings flat_builtins (spec_imports example_policy)
    (store_of [int_created_doc; missing_doc]) =
  Raise (HTTPException 500 "'<' not supported between instances of 'int' and 'str'").
Proof. reflexivity. Qed.

(** ** Creation: claims C3, C4 and C8 *)


Lemma create_booking_body_cases W (env : Imports W) payload w :
  (exists id w', create_booking_body env payload w = (Ok (created_response id), w')) \/
  (exists e w', create_booking_body env payload w = (Raise e, w') /\
                creation_fails env payload w e w').
Proof.
  unfold create_booking_body.
  destruct (import_create_document env) as [cd|e] eqn:H1.
  2:{ right. exists e, w. split; [reflexivity|]. now apply fails_import_database. }
  destruct (import_Booking env) as [schema|e] eqn:H2.
  2:{ right. exists e, w. split; [reflexivity|]. eapply fails_import_schemas; eauto. }
  destruct (schema (model_dump payload)) as [booking|e] eqn:H3.
  2:{ right. exists e, w. split; [reflexivity|]. eapply fails_validation; eauto. }
  destruct (cd "booking" booking w) as [[id|e] w'] eqn:H4; simpl.
  - left. now exists id, w'.
  - right. exists e, w'. split; [reflexivity|]. eapply fails_persistence; eauto.
Qed.

Lemma creation_fails_body W (env : Imports W) payload w e w' :
  creation_fails env payload w e w' ->
  create_booking_body env payload w = (Raise e, w').
Proof.
  unfold create_booking_body.
  intros [e0 H1|cd e0 H1 H2|cd schema e0 H1 H2 H3|cd schema booking e0 w0 H1 H2 H3 H4].
  - now rewrite H1.
  - now rewrite H1, H2.
  - now rewrite H1, H2, H3.
  - now rewrite H1, H2, H3, H4.
Qed.

(** C3.  When a step of the creation fails with exception [e] (an import,
    the canonical schema or the insert), [create_booking] raises
    [HTTPException(500, str(e))]; whatever [create_booking] raises is such
    an exception, built from the exception of the failing step; so a
    validation failure and a store failure with the same message give the
    same response. *)
Theorem create_booking_failure W (env : Imports W) payload w :
  (forall e w', creation_fails env payload w e w' ->
     create_booking env payload w = (Raise (HTTPException 500 (exc_str e)), w')) /\
  (forall x w', create_booking env payload w = (Raise x, w') ->
     exists e, creation_fails env payload w e w' /\ x = HTTPException 500 (exc_str e)).
Proof.
  split.
  - intros e w' Hf. unfold create_booking.
    now rewrite (creation_fails_body W env payload w e w' Hf).
  - intros x w' Hr. unfold create_booking in Hr.
    destruct (create_booking_body_cases W env payload w)
      as [(id & w0 & Hb)|(e & w0 & Hb & Hf)]; rewrite Hb in Hr; simpl in Hr.
    + discriminate.
    + injection Hr as <- <-. now exists e.
Qed.

Lemma create_booking_failure_witness :
  create_booking (spec_imports example_policy)
    (mk_BookingIn "" "0612345678" None "cut" None None None) (store_of []) =
  (Raise (HTTPException 500 "name: String should have at least 1 character"),
   store_of []) /\
  create_booking (spec_imports example_policy) amine
    {| available := false; documents := fun _ => [] |} =
  (Raise (HTTPException 500 "Database not available"),
   {| available := false; documents := fun _ => [] |}).
Proof.
  split.
  - apply (proj1 (create_booking_failure Store (spec_imports example_policy)
                    (mk_BookingIn "" "0612345678" None "cut" None None None) (store_of []))
             (ValidationError "name: String should have at least 1 character")).
    eapply fails_validation; reflexivity.
  - apply (proj1 (create_booking_failure Store (spec_imports example_policy) amine
                    {| available := false; documents := fun _ => [] |})
             (Exception "Database not available")).
    eapply fails_persistence; reflexivity.
Defined.




Example second_booking_id :
  fst (create_booking (spec_imports example_policy) badr one_booking_store) =
  Ok (VDict [("status", VStr "ok"); ("id", VStr "000000000000000000000001")]).
Proof. reflexivity. Qed.

Lemma validate_ignores_created_at v body :
  BookingIn_validate (dict_set "created_at" v body) = BookingIn_validate body.
Proof.
  unfold BookingIn_validate, required_str, optional_str.
  now rewrite !dict_get_set_neq by discriminate.
Qed.

(** C8.  A [created_at] in the request body, whatever its value, changes
    nothing: the body is validated to the same payload, so the route
    answers the same and leaves the store in the same state; the record
    handed to the canonical schema has exactly the seven intake fields, and
    [created_at] is not one of them. *)
Theorem created_at_not_client_supplied W (env : Imports W) body v w :
  BookingIn_validate (dict_set "created_at" v body) = BookingIn_validate body /\
  post_api_bookings env (dict_set "created_at" v body) w = post_api_bookings env body w /\
  (forall payload,
     keys (model_dump payload) = booking_fields /\
     dict_get "created_at" (model_dump payload) = None).
Proof.
  split; [apply validate_ignores_created_at|]. split.
  - unfold post_api_bookings. now rewrite validate_ignores_created_at.
  - intros payload. split; reflexivity.
Qed.

Example post_with_created_at :
  post_api_bookings (spec_imports example_policy)
    [("name", VStr "Amine"); ("phone", VStr "0612345678"); ("service", VStr "cut");
     ("created_at", VStr "1999-01-01T00:00:00")] (store_of []) =
  Some (create_booking (spec_imports example_policy) amine (store_of [])).
Proof. reflexivity. Qed.

(** ** Round trip through the store: claim C5 *)













Example round_trip_listing :
  list_bookings flat_builtins (spec_imports example_policy)
    (snd (create_booking (spec_imports example_policy) badr one_booking_store)) =
  Ok (bookings_response
        [_serialize_doc flat_builtins
           (stored_document "000000000000000000000000" march_5 (model_dump amine));
         _serialize_doc flat_builtins
           (stored_document "000000000000000000000001" march_5 (model_dump badr))]).
Proof. reflexivity. Qed.

(** ** Diagnostics: claims C6 and C7 *)

(** C6.  [test_database] returns a mapping whatever the import of the
    database handle gives, whatever the handle does and whatever the
    environment holds; the mapping has the six keys, [backend] reports the
    process as running, and [collections] is a list of at most 10
    collection names. *)
Theorem test_database_never_raises W (import_db : outcome (option (DbHandle W)))
    (getenv : string -> option string) (w : W) :
  exists response cols,
    test_database import_db getenv w = Ok response /\
    keys response = diagnostics_keys /\
    dict_get "backend" response = Some (VStr "✅ Running") /\
    dict_get "collections" response = Some (VList (map VStr cols)) /\
    (List.length cols <= 10)%nat.
Proof.
  unfold test_database, test_database_body, probe_collections.
  destruct import_db as [[db|]|e].
  - destruct (db_name db) as [|v|e].
    + destruct (list_collection_names db w) as [l|e].
      * eexists; exists (firstn 10 l). repeat split. apply firstn_le_length.
      * eexists; exists []. repeat split. simpl. lia.
    + destruct (list_collection_names db w) as [l|e].
      * eexists; exists (firstn 10 l). repeat split. apply firstn_le_length.
      * eexists; exists []. repeat split. simpl. lia.
    + destruct e; eexists; exists []; repeat split; simpl; lia.
  - eexists; exists []. repeat split. simpl. lia.
  - destruct e; eexists; exists []; repeat split; simpl; lia.
Qed.

Lemma getenv_truthy_spec getenv v :
  getenv_truthy getenv v = true <-> exists s, getenv v = Some s /\ s <> "".
Proof.
  unfold getenv_truthy. destruct (getenv v) as [[|c s]|]; split;
    try discriminate; try reflexivity.
  - intros (s & [= <-] & H). congruence.
  - intros _. eexists. split; [reflexivity|discriminate].
  - intros (s & H & _). discriminate.
Qed.

Lemma test_database_masks W (import_db : outcome (option (DbHandle W))) getenv w :
  field "database_url" (test_database import_db getenv w) =
    Some (set_or_not (getenv_truthy getenv "DATABASE_URL")) /\
  field "database_name" (test_database import_db getenv w) =
    Some (set_or_not (getenv_truthy getenv "DATABASE_NAME")).
Proof.
  unfold test_database, test_database_body, probe_collections.
  destruct import_db as [[db|]|e].
  - destruct (db_name db) as [|v|e].
    + destruct (list_collection_names db w); split; reflexivity.
    + destruct (list_collection_names db w); split; reflexivity.
    + destruct e; split; reflexivity.
  - split; reflexivity.
  - destruct e; split; reflexivity.
Qed.

(** C7, as amended.  In the mapping returned by [test_database], each of
    [database_url] and [database_name] is one of the two indicators, chosen
    by whether its environment variable is set to a non-empty value; two
    runs in the same environment give the same two fields, whatever the
    import of the handle gives, whatever the handle and its name are and
    whatever the state of the database. *)
Theorem diagnostics_presence_masked W (import_db : outcome (option (DbHandle W)))
    (getenv : string -> option string) (w : W) :
  field "database_url" (test_database import_db getenv w) =
    Some (VStr (if getenv_truthy getenv "DATABASE_URL" then "✅ Set" else "❌ Not Set")) /\
  field "database_name" (test_database import_db getenv w) =
    Some (VStr (if getenv_truthy getenv "DATABASE_NAME" then "✅ Set" else "❌ Not Set")) /\
  (forall v, getenv_truthy getenv v = true <-> exists s, getenv v = Some s /\ s <> "") /\
  (forall W' (import_db' : outcome (option (DbHandle W'))) (w' : W'),
     field "database_url" (test_database import_db' getenv w') =
     field "database_url" (test_database import_db getenv w) /\
     field "database_name" (test_database import_db' getenv w') =
     field "database_name" (test_database import_db getenv w)).
Proof.
  destruct (test_database_masks W import_db getenv w) as [Hu Hn].
  split; [exact Hu|]. split; [exact Hn|].
  split; [intros v; apply getenv_truthy_spec|].
  intros W' import_db' w'.
  destruct (test_database_masks W' import_db' getenv w') as [Hu' Hn'].
  split; congruence.
Qed.

(** C7 as stated fails on two environments in which [DATABASE_NAME] is
    set, to the empty string in one and to a name in the other: the field
    differs although the variable is set in both. *)
Lemma diagnostics_empty_reads_not_set :
  env_empty_name "DATABASE_NAME" <> None /\
  env_named "DATABASE_NAME" <> None /\
  field "database_name" (test_database no_database env_empty_name tt) =
    Some (VStr "❌ Not Set") /\
  field "database_name" (test_database no_database env_named tt) =
    Some (VStr "✅ Set").
Proof. repeat split; discriminate. Qed.

(** ** The catalog: claim C9 *)

(** C9.  [list_services] returns four entries, each with the fields [id],
    [name], [price], [duration] and [desc]; one of them has id ["fade"],
    price 140 and duration 45; every call returns the same list. *)
Theorem list_services_fixed (u : unit) :
  List.length (list_services u) = 4%nat /\
  Forall (fun s => keys s = ["id"; "name"; "price"; "duration"; "desc"])
         (list_services u) /\
  (exists s, In s (list_services u) /\
             dict_get "id" s = Some (VStr "fade") /\
             dict_get "price" s = Some (VInt 140) /\
             dict_get "duration" s = Some (VInt 45)) /\
  (forall u', list_services u' = list_services u).
Proof.
  split; [reflexivity|]. split; [repeat constructor|]. split.
  - exists (service_entry "fade" "Skin Fade" 140 45 "Sharp fade with detailed finish.").
    split; [simpl; tauto|]. repeat split.
  - intros u'. reflexivity.
Qed.

(** * Further properties of the code *)

(** ** The serializer, entry by entry *)

Lemma dict_set_fresh k v d : ~ In k (keys d) -> dict_set k v d = d ++ [(k, v)].
Proof.
  induction d as [|[k' v'] d IH]; simpl; intros Hn; [reflexivity|].
  destruct (String.eqb_spec k k') as [->|Hne].
  - exfalso. apply Hn. now left.
  - f_equal. apply IH. intros H. apply Hn. now right.
Qed.

Lemma fold_serialize_fresh B l : forall acc,
  NoDup (keys acc ++ map out_key (keys l)) ->
  fold_left (serialize_item B) l acc = acc ++ map (serialize_entry B) l.
Proof.
  induction l as [|[k v] l IH]; intros acc Hnd; cbn [fold_left map].
  - now rewrite app_nil_r.
  - rewrite serialize_item_eq. simpl in Hnd.
    rewrite dict_set_fresh.
    + rewrite IH.
      * now rewrite <- app_assoc.
      * unfold keys in *. rewrite map_app, <- app_assoc. exact Hnd.
    + apply NoDup_remove_2 in Hnd. intros H. apply Hnd, in_or_app. now left.
Qed.

Lemma out_key_injective (l : list string) :
  ~ (In "_id" l /\ In "id" l) ->
  forall a b, In a l -> In b l -> out_key a = out_key b -> a = b.
Proof.
  intros Hno a b Ha Hb. unfold out_key.
  destruct (String.eqb_spec a "_id") as [->|Na];
    destruct (String.eqb_spec b "_id") as [->|Nb]; intros E; subst; tauto.
Qed.

Lemma serialize_entrywise_eq B doc :
  wf_dict doc -> ~ (In "_id" (keys doc) /\ In "id" (keys doc)) ->
  _serialize_doc B doc = map (serialize_entry B) doc.
Proof.
  intros Hwf Hno. unfold _serialize_doc.
  rewrite fold_serialize_fresh; [reflexivity|]. simpl.
  apply NoDup_map_NoDup_ForallPairs; [|exact Hwf].
  intros a b. now apply out_key_injective.
Qed.

(** X1.  On a well-formed record that does not hold both [_id] and [id],
    serialization is entry by entry: the entries keep their order, [_id]
    becomes [id] in place, and nothing is added or dropped. *)
Theorem serialize_doc_entrywise (B : Builtins) (doc : dict) :
  wf_dict doc ->
  ~ (In "_id" (keys doc) /\ In "id" (keys doc)) ->
  _serialize_doc B doc = map (serialize_entry B) doc /\
  keys (_serialize_doc B doc) = map out_key (keys doc) /\
  List.length (_serialize_doc B doc) = List.length doc.
Proof.
  intros Hwf Hno. rewrite (serialize_entrywise_eq B doc Hwf Hno).
  split; [reflexivity|]. split.
  - unfold keys. rewrite !map_map. reflexivity.
  - apply length_map.
Qed.

Lemma serialize_doc_entrywise_witness :
  wf_dict booking_doc /\
  keys (_serialize_doc flat_builtins booking_doc) =
  ["id"; "name"; "phone"; "service"; "created_at"].
Proof.
  split; [exact booking_doc_wf|].
  refine (proj1 (proj2 (serialize_doc_entrywise flat_builtins booking_doc
                          booking_doc_wf _))).
  intros [_ H]. simpl in H. intuition discriminate.
Defined.

Lemma dict_set_Forall (P : string * value -> Prop) k v d :
  P (k, v) -> Forall P d -> Forall P (dict_set k v d).
Proof.
  intros Hkv. induction 1 as [|[k' v'] d Hx Hd IH]; simpl.
  - repeat constructor. exact Hkv.
  - destruct (String.eqb_spec k k') as [->|Hne]; constructor; auto.
Qed.

Lemma serialize_entry_json B kv : json_entry (serialize_entry B kv).
Proof.
  destruct kv as [k v]. unfold json_entry, serialize_entry, out_value. simpl.
  split; [apply out_key_not_id|].
  destruct (String.eqb k "_id"); [reflexivity|]. now destruct v.
Qed.

Lemma fold_serialize_json B l : forall acc,
  Forall json_entry acc -> Forall json_entry (fold_left (serialize_item B) l acc).
Proof.
  induction l as [|[k v] l IH]; intros acc Hacc; cbn [fold_left]; [assumption|].
  apply IH. rewrite serialize_item_eq. apply dict_set_Forall; [|assumption].
  apply (serialize_entry_json B (k, v)).
Qed.

Lemma json_entry_fixed B kv : json_entry kv -> serialize_entry B kv = kv.
Proof.
  destruct kv as [k v]. unfold json_entry, serialize_entry, out_key, out_value.
  simpl. intros [Hk Hv]. apply String.eqb_neq in Hk. rewrite Hk.
  destruct v; try reflexivity. discriminate.
Qed.

(** X2.  Whatever the record, its serialization has distinct keys, none of
    them [_id], and no datetime among its values; it is built from the
    keys of the record, [_id] read as [id]. *)
Theorem serialize_doc_output_shape (B : Builtins) (doc : dict) :
  wf_dict (_serialize_doc B doc) /\
  Forall json_entry (_serialize_doc B doc) /\
  (forall k, In k (keys (_serialize_doc B doc)) <-> In k (map out_key (keys doc))).
Proof.
  split; [apply serialize_wf|]. split.
  - apply fold_serialize_json. constructor.
  - intros k. apply serialize_keys.
Qed.

(** X3.  Serializing a serialized record changes nothing. *)
Theorem serialize_doc_idempotent (B : Builtins) (doc : dict) :
  _serialize_doc B (_serialize_doc B doc) = _serialize_doc B doc.
Proof.
  rewrite (serialize_entrywise_eq B (_serialize_doc B doc)).
  - assert (Hjson : Forall json_entry (_serialize_doc B doc))
      by (apply fold_serialize_json; constructor).
    induction Hjson as [|kv l Hkv Hl IH]; simpl; [reflexivity|].
    now rewrite json_entry_fixed, IH.
  - apply serialize_wf.
  - intros [H _]. apply dict_get_none in H; [exact H|apply serialize_no__id].
Qed.

Lemma last_write_app B k l1 l2 :
  last_write B k (l1 ++ l2) =
  match last_write B k l2 with
  | Some v => Some v
  | None => last_write B k l1
  end.
Proof.
  induction l1 as [|[k' v'] l1 IH]; simpl.
  - now destruct (last_write B k l2).
  - rewrite IH. now destruct (last_write B k l2).
Qed.

Lemma serialize_later_entry B l1 l2 k v :
  wf_dict (l1 ++ (k, v) :: l2) ->
  (k = "_id" /\ In "id" (keys l1)) \/ (k = "id" /\ In "_id" (keys l1)) ->
  dict_get "id" (_serialize_doc B (l1 ++ (k, v) :: l2)) = Some (out_value B k v).
Proof.
  intros Hwf Hk.
  rewrite serialize_get, last_write_app. cbn [last_write].
  assert (Hl2 : forall k', In k' (keys l2) -> k' <> "_id" /\ k' <> "id").
  { unfold wf_dict, keys in Hwf. rewrite map_app in Hwf. simpl in Hwf.
    intros k' Hin.
    pose proof (NoDup_remove_2 _ _ _ Hwf) as Hk'.
    apply NoDup_remove_1 in Hwf.
    assert (Hd : forall x, In x (map fst l1) -> x <> k').
    { intros x Hx ->. revert Hwf Hx Hin. clear.
      induction (map fst l1) as [|a l IH]; simpl; intros Hnd Hx Hin; [easy|].
      inversion Hnd as [|? ? Hn Hnd']; subst. destruct Hx as [->|Hx]; auto.
      apply Hn, in_or_app. now right. }
    assert (Hne : k' <> k).
    { intros ->. apply Hk', in_or_app. now right. }
    destruct Hk as [[-> Hid]|[-> Hid]]; split; try exact Hne;
      intros ->; now apply (Hd _ Hid). }
  rewrite last_write_none.
  - assert (E : String.eqb "id" (out_key k) = true).
    { destruct Hk as [[-> _]|[-> _]]; reflexivity. }
    now rewrite E.
  - intros k' Hin. destruct (Hl2 k' Hin) as [H1 H2].
    now rewrite out_key_other.
Qed.

(** X4.  When a well-formed record holds both [_id] and [id], the later of
    the two in the order of the record decides the output [id]: the
    stringified [_id] when [_id] comes later, the converted [id] when [id]
    comes later. *)
Theorem serialize_doc_later_wins (B : Builtins) (l1 l2 : dict) (v : value) :
  (wf_dict (l1 ++ ("_id", v) :: l2) -> In "id" (keys l1) ->
   dict_get "id" (_serialize_doc B (l1 ++ ("_id", v) :: l2)) = Some (VStr (py_str B v))) /\
  (wf_dict (l1 ++ ("id", v) :: l2) -> In "_id" (keys l1) ->
   dict_get "id" (_serialize_doc B (l1 ++ ("id", v) :: l2)) = Some (jsonable v)).
Proof.
  split; intros Hwf Hin.
  - rewrite serialize_later_entry; [reflexivity|assumption|]. left. now split.
  - rewrite serialize_later_entry; [reflexivity|assumption|]. right. now split.
Qed.

Lemma serialize_doc_later_wins_witness :
  wf_dict clash_doc /\
  dict_get "id" (_serialize_doc flat_builtins clash_doc) = Some (VInt 7).
Proof.
  split; [exact clash_doc_wf|].
  refine (proj2 (serialize_doc_later_wins flat_builtins
            [("_id", VObjectId "65e6e0a1c2b3d4e5f6a7b8c9")] [] (VInt 7))
            clash_doc_wf _).
  left. reflexivity.
Defined.

(** ** The listing, whatever the records *)

Lemma insert_desc_perm B key x l r :
  insert_desc B key x l = Ok r -> Permutation (x :: l) r.
Proof.
  revert r. induction l as [|y l IH]; simpl; intros r H.
  - injection H as <-. reflexivity.
  - destruct (py_lt B (key x) (key y)) as [[|]|e]; simpl in H; try discriminate.
    + destruct (insert_desc B key x l) as [r'|e]; simpl in H; [|discriminate].
      injection H as <-. rewrite perm_swap. constructor. now apply IH.
    + injection H as <-. reflexivity.
Qed.

Lemma sort_desc_perm B key l s :
  sort_desc B key l = Ok s -> Permutation l s.
Proof.
  revert s. induction l as [|x l IH]; simpl; intros s H.
  - injection H as <-. constructor.
  - destruct (sort_desc B key l) as [s'|e]; simpl in H; [|discriminate].
    rewrite <- (insert_desc_perm B key x s' s H). constructor. now apply IH.
Qed.

(** X5.  Whatever the records read, [list_bookings] either returns
    [{"items": ..., "count": ...}], whose items are the serialized records
    in some order and whose count is the number of records read, or raises
    an [HTTPException] with status 500: no record is dropped or added, and
    no other exception leaves the handler. *)
Theorem list_bookings_outcomes B W (env : Imports W) w :
  (forall r, list_bookings B env w = Ok r ->
     exists get_documents docs items,
       import_get_documents env = Ok get_documents /\
       get_documents "booking" [] 200 w = Ok docs /\
       r = VDict [("items", VList (map VDict items));
                  ("count", VInt (Z.of_nat (List.length docs)))] /\
       Permutation (map (_serialize_doc B) docs) items) /\
  (forall x, list_bookings B env w = Raise x ->
     exists e, x = HTTPException 500 (exc_str e)).
Proof.
  unfold list_bookings, list_bookings_body. split.
  - intros r H.
    destruct (import_get_documents env) as [get|e]; simpl in H; [|discriminate].
    destruct (get "booking" [] 200 w) as [docs|e] eqn:G; simpl in H; [|discriminate].
    destruct (sort_desc B sort_key (map (_serialize_doc B) docs)) as [items|e] eqn:S;
      simpl in H; [|discriminate].
    injection H as <-. apply sort_desc_perm in S.
    exists get, docs, items. repeat split; try assumption.
    now rewrite <- (Permutation_length S), length_map.
  - intros x H.
    destruct (bind _ _) as [r|e]; simpl in H; [discriminate|].
    injection H as <-. now exists e.
Qed.

Lemma list_bookings_outcomes_witness :
  exists e,
    HTTPException 500 "'<' not supported between instances of 'int' and 'str'" =
    HTTPException 500 (exc_str e).
Proof.
  apply (proj2 (list_bookings_outcomes flat_builtins Store
                  (spec_imports example_policy)
                  (store_of [int_created_doc; missing_doc]))).
  reflexivity.
Defined.

(** X6.  When the import of [get_documents] or the read itself raises
    [e], [list_bookings] raises [HTTPException(500, str(e))]. *)
Theorem list_bookings_read_failure B W (env : Imports W) w e :
  (import_get_documents env = Raise e ->
   list_bookings B env w = Raise (HTTPException 500 (exc_str e))) /\
  (forall get_documents,
     import_get_documents env = Ok get_documents ->
     get_documents "booking" [] 200 w = Raise e ->
     list_bookings B env w = Raise (HTTPException 500 (exc_str e))).
Proof.
  unfold list_bookings, list_bookings_body. split.
  - intros ->. reflexivity.
  - intros get -> H. simpl. now rewrite H.
Qed.

Lemma list_bookings_read_failure_witness :
  list_bookings flat_builtins (spec_imports example_policy)
    {| available := false; documents := fun _ => [] |} =
  Raise (HTTPException 500 "Database not available").
Proof.
  apply (proj2 (list_bookings_read_failure flat_builtins Store
                  (spec_imports example_policy)
                  {| available := false; documents := fun _ => [] |}
                  (Exception "Database not available"))
           (store_get_documents example_policy)); reflexivity.
Defined.

(** X7.  A read of no record or of one record never fails in the sort,
    whatever the record holds: the listing is the serialized read. *)
Theorem list_bookings_short_read B W (env : Imports W) w get_documents docs :
  import_get_documents env = Ok get_documents ->
  get_documents "booking" [] 200 w = Ok docs ->
  (List.length docs <= 1)%nat ->
  list_bookings B env w =
  Ok (VDict [("items", VList (map VDict (map (_serialize_doc B) docs)));
             ("count", VInt (Z.of_nat (List.length docs)))]).
Proof.
  intros Himp Hget Hlen. unfold list_bookings, list_bookings_body.
  rewrite Himp. simpl. rewrite Hget. simpl.
  destruct docs as [|d [|d' docs]]; simpl in *; try reflexivity. lia.
Qed.

Lemma list_bookings_short_read_witness :
  list_bookings flat_builtins (spec_imports example_policy)
    (store_of [int_created_doc]) =
  Ok (VDict [("items", VList (map VDict (map (_serialize_doc flat_builtins)
                                             [int_created_doc])));
             ("count", VInt 1)]).
Proof.
  apply (list_bookings_short_read flat_builtins Store (spec_imports example_policy)
           (store_of [int_created_doc]) (store_get_documents example_policy)
           [int_created_doc]); [reflexivity|reflexivity|simpl; lia].
Defined.

(** ** The intake model *)

(** X8.  Dumping a payload and validating the dump gives the payload back:
    [model_dump] loses nothing, and every payload is the validation of
    some body. *)
Theorem BookingIn_round_trip (p : BookingIn) :
  BookingIn_validate (model_dump p) = Some p.
Proof.
  destruct p as [n ph [e|] s [d|] [t|] [o|]]; reflexivity.
Qed.

Lemma validate_ignores_key k v body :
  ~ In k booking_fields ->
  BookingIn_validate (dict_set k v body) = BookingIn_validate body.
Proof.
  intros Hk. unfold BookingIn_validate, required_str, optional_str.
  rewrite !dict_get_set_neq; [reflexivity| | | | | | |];
    intros <-; apply Hk; simpl; tauto.
Qed.

(** X9.  A key of the body that is not one of the seven intake fields is
    ignored, whatever its value: the payload, the answer of the route and
    the state of the store are the same with and without it. *)
Theorem BookingIn_ignores_extra_keys W (env : Imports W) k v body w :
  ~ In k booking_fields ->
  BookingIn_validate (dict_set k v body) = BookingIn_validate body /\
  post_api_bookings env (dict_set k v body) w = post_api_bookings env body w.
Proof.
  intros Hk. split; [now apply validate_ignores_key|].
  unfold post_api_bookings. now rewrite validate_ignores_key.
Qed.

Lemma BookingIn_ignores_extra_keys_witness :
  post_api_bookings (spec_imports example_policy)
    (dict_set "is_admin" (VBool true) (model_dump amine)) (store_of []) =
  post_api_bookings (spec_imports example_policy) (model_dump amine) (store_of []).
Proof.
  apply (BookingIn_ignores_extra_keys Store (spec_imports example_policy)
           "is_admin" (VBool true) (model_dump amine) (store_of [])).
  simpl. intuition discriminate.
Defined.

Lemma required_str_some k body s :
  required_str k body = Some s <-> dict_get k body = Some (VStr s).
Proof.
  unfold required_str. destruct (dict_get k body) as [[]|]; split; congruence.
Qed.

Lemma optional_str_some k body o :
  optional_str k body = Some o -> get_default k VNone body = opt_value o.
Proof.
  unfold optional_str, get_default.
  destruct (dict_get k body) as [[]|]; intros [= <-]; reflexivity.
Qed.

(** X10.  An accepted body gives a payload that carries its values: each
    required field is the string under its key, each optional field is the
    string under its key, or none when the key is absent or null. *)
Theorem BookingIn_validate_sound (body : dict) (p : BookingIn) :
  BookingIn_validate body = Some p ->
  dict_get "name" body = Some (VStr (name p)) /\
  dict_get "phone" body = Some (VStr (phone p)) /\
  dict_get "service" body = Some (VStr (service p)) /\
  get_default "email" VNone body = opt_value (email p) /\
  get_default "preferred_date" VNone body = opt_value (preferred_date p) /\
  get_default "preferred_time" VNone body = opt_value (preferred_time p) /\
  get_default "notes" VNone body = opt_value (notes p).
Proof.
  unfold BookingIn_validate.
  destruct (required_str "name" body) as [n|] eqn:Hn; [|discriminate].
  destruct (required_str "phone" body) as [ph|] eqn:Hp; [|discriminate].
  destruct (optional_str "email" body) as [e|] eqn:He; [|discriminate].
  destruct (required_str "service" body) as [s|] eqn:Hs; [|discriminate].
  destruct (optional_str "preferred_date" body) as [d|] eqn:Hd; [|discriminate].
  destruct (optional_str "preferred_time" body) as [t|] eqn:Ht; [|discriminate].
  destruct (optional_str "notes" body) as [o|] eqn:Ho; [|discriminate].
  intros [= <-]. simpl.
  repeat split; auto using optional_str_some; now apply required_str_some.
Qed.

Lemma BookingIn_validate_sound_witness :
  dict_get "name" (model_dump amine) = Some (VStr "Amine") /\
  dict_get "phone" (model_dump amine) = Some (VStr "0612345678") /\
  dict_get "service" (model_dump amine) = Some (VStr "cut") /\
  get_default "email" VNone (model_dump amine) = VNone /\
  get_default "preferred_date" VNone (model_dump amine) = VNone /\
  get_default "preferred_time" VNone (model_dump amine) = VNone /\
  get_default "notes" VNone (model_dump amine) = VNone.
Proof.
  apply (BookingIn_validate_sound (model_dump amine) amine). reflexivity.
Defined.

Lemma required_str_none k body :
  required_str k body = None <-> forall s, dict_get k body <> Some (VStr s).
Proof.
  unfold required_str. destruct (dict_get k body) as [[]|]; split;
    try congruence; try discriminate.
  intros H. now destruct (H s).
Qed.

Lemma optional_str_none k body :
  optional_str k body = None <-> ~ optional_ok k body.
Proof.
  unfold optional_str, optional_ok.
  destruct (dict_get k body) as [[]|]; split; try discriminate; try tauto;
    intros H; now destruct H.
Qed.

(** X11.  A body is rejected exactly when one of [name], [phone] and
    [service] is not a string, or one of the four optional fields is present
    with a value that is neither a string nor null; the handler then does
    not run. *)
Theorem BookingIn_validate_rejects W (env : Imports W) (body : dict) (w : W) :
  (BookingIn_validate body = None <->
   (exists k, In k required_fields /\ forall s, dict_get k body <> Some (VStr s)) \/
   (exists k, In k optional_fields /\ ~ optional_ok k body)) /\
  (BookingIn_validate body = None -> post_api_bookings env body w = None).
Proof.
  split.
  - unfold BookingIn_validate. split.
    + destruct (required_str "name" body) eqn:Hn.
      2:{ intros _. left. exists "name". split; [simpl; tauto|].
          now apply required_str_none. }
      destruct (required_str "phone" body) eqn:Hp.
      2:{ intros _. left. exists "phone". split; [simpl; tauto|].
          now apply required_str_none. }
      destruct (optional_str "email" body) eqn:He.
      2:{ intros _. right. exists "email". split; [simpl; tauto|].
          now apply optional_str_none. }
      destruct (required_str "service" body) eqn:Hs.
      2:{ intros _. left. exists "service". split; [simpl; tauto|].
          now apply required_str_none. }
      destruct (optional_str "preferred_date" body) eqn:Hd.
      2:{ intros _. right. exists "preferred_date". split; [simpl; tauto|].
          now apply optional_str_none. }
      destruct (optional_str "preferred_time" body) eqn:Ht.
      2:{ intros _. right. exists "preferred_time". split; [simpl; tauto|].
          now apply optional_str_none. }
      destruct (optional_str "notes" body) eqn:Ho.
      2:{ intros _. right. exists "notes". split; [simpl; tauto|].
          now apply optional_str_none. }
      discriminate.
    + intros [(k & Hk & Hbad)|(k & Hk & Hbad)].
      * apply required_str_none in Hbad. simpl in Hk.
        destruct Hk as [<-|[<-|[<-|[]]]]; rewrite Hbad;
          repeat match goal with
                 | |- context [match ?x with _ => _ end] => destruct x
                 end; reflexivity.
      * apply optional_str_none in Hbad. simpl in Hk.
        destruct Hk as [<-|[<-|[<-|[<-|[]]]]]; rewrite Hbad;
          repeat match goal with
                 | |- context [match ?x with _ => _ end] => destruct x
                 end; reflexivity.
  - intros H. unfold post_api_bookings. now rewrite H.
Qed.

Lemma BookingIn_validate_rejects_witness :
  post_api_bookings (spec_imports example_policy)
    [("name", VStr "Amine"); ("phone", VInt 612345678); ("service", VStr "cut")]
    (store_of []) = None.
Proof.
  apply (proj2 (BookingIn_validate_rejects Store (spec_imports example_policy)
                  [("name", VStr "Amine"); ("phone", VInt 612345678);
                   ("service", VStr "cut")] (store_of []))).
  reflexivity.
Defined.

(** ** Creation and the store *)

(** X12.  Unless both imports succeed and the canonical schema accepts the
    payload, [create_booking] leaves the store as it was: nothing is
    inserted for a payload that fails validation. *)
Theorem create_booking_no_insert_before_acceptance W (env : Imports W) payload w :
  (forall create_document schema booking,
     import_create_document env = Ok create_document ->
     import_Booking env = Ok schema ->
     schema (model_dump payload) <> Ok booking) ->
  snd (create_booking env payload w) = w /\
  exists e, fst (create_booking env payload w) = Raise (HTTPException 500 (exc_str e)).
Proof.
  intros Hrej. unfold create_booking, create_booking_body.
  destruct (import_create_document env) as [cd|e] eqn:H1.
  2:{ split; [reflexivity|]. now exists e. }
  destruct (import_Booking env) as [schema|e] eqn:H2.
  2:{ split; [reflexivity|]. now exists e. }
  destruct (schema (model_dump payload)) as [booking|e] eqn:H3.
  - now destruct (Hrej cd schema booking).
  - split; [reflexivity|]. now exists e.
Qed.

Lemma create_booking_no_insert_before_acceptance_witness :
  snd (create_booking (spec_imports example_policy)
         (mk_BookingIn "" "0612345678" None "cut" None None None)
         (store_of [booking_doc])) = store_of [booking_doc] /\
  exists e,
    fst (create_booking (spec_imports example_policy)
           (mk_BookingIn "" "0612345678" None "cut" None None None)
           (store_of [booking_doc])) = Raise (HTTPException 500 (exc_str e)).
Proof.
  apply (create_booking_no_insert_before_acceptance Store
           (spec_imports example_policy)
           (mk_BookingIn "" "0612345678" None "cut" None None None)
           (store_of [booking_doc])).
  intros cd schema booking _ [= <-]. discriminate.
Defined.

(** ** Diagnostics, case by case *)

Ltac diagnostics_cases import_db w :=
  unfold test_database, test_database_body, probe_collections;
  destruct import_db as [[?db|]|[]]; simpl;
  try (destruct (db_name db) as [| |[]]; simpl);
  try (destruct (list_collection_names db w) as [|[]]; simpl).

(** X13.  [connection_status] reads "Connected" exactly when the import
    gave a handle and looking up its [name] did not raise; it reads "Not
    Connected" otherwise.  A failing collection listing does not change
    it. *)
Theorem test_database_connection_status W (import_db : outcome (option (DbHandle W)))
    (getenv : string -> option string) (w : W) :
  field "connection_status" (test_database import_db getenv w) =
  Some (VStr (if handle_reached import_db then "Connected" else "Not Connected")).
Proof.
  unfold handle_reached. diagnostics_cases import_db w; reflexivity.
Qed.

(** X14.  With a handle whose [name] lookup does not raise: when the
    listing returns names, [database] reads "Connected & Working" and
    [collections] holds the first ten names in order; when the listing
    raises [e], [collections] stays empty and [database] carries the start
    of [str(e)]. *)
Theorem test_database_live W (db : DbHandle W) (getenv : string -> option string) (w : W) :
  (forall e, db_name db <> AttributeRaises e) ->
  (forall names, list_collection_names db w = Ok names ->
     field "database" (test_database (Ok (Some db)) getenv w) =
       Some (VStr "✅ Connected & Working") /\
     field "collections" (test_database (Ok (Some db)) getenv w) =
       Some (VList (map VStr (firstn 10 names)))) /\
  (forall e, list_collection_names db w = Raise e ->
     field "database" (test_database (Ok (Some db)) getenv w) =
       Some (VStr ("⚠️  Connected but Error: " ++ take_chars 50 (exc_str e))) /\
     field "collections" (test_database (Ok (Some db)) getenv w) = Some (VList [])).
Proof.
  intros Hname. unfold test_database, test_database_body, probe_collections.
  destruct (db_name db) as [|v|e0] eqn:N; [| |now destruct (Hname e0)];
    (split; [intros names ->|intros e ->]; split; reflexivity).
Qed.

Lemma test_database_live_witness :
  field "collections"
    (test_database
       (Ok (Some {| db_name := Attribute (VStr "barbershop");
                    list_collection_names := fun _ : unit =>
                      Ok ["a"; "b"; "c"; "d"; "e"; "f"; "g"; "h"; "i"; "j"; "k"; "l"] |}))
       env_named tt) =
  Some (VList (map VStr ["a"; "b"; "c"; "d"; "e"; "f"; "g"; "h"; "i"; "j"])).
Proof.
  refine (proj2 (proj1 (test_database_live unit
            {| db_name := Attribute (VStr "barbershop");
               list_collection_names := fun _ : unit =>
                 Ok ["a"; "b"; "c"; "d"; "e"; "f"; "g"; "h"; "i"; "j"; "k"; "l"] |}
            env_named tt _) _ eq_refl)).
  intros e. discriminate.
Defined.

(** X15.  Without a usable database: an [ImportError] reads "Database
    module not found" whatever its message, a handle that is [None] reads
    "Available but not initialized", and any other exception [e] of the
    import reads "Error: " followed by the start of [str(e)]; in the three
    cases [collections] is empty. *)
Theorem test_database_unavailable W (getenv : string -> option string) (w : W) :
  (forall msg,
     field "database" (test_database (W := W) (Raise (ImportError msg)) getenv w) =
       Some (VStr "❌ Database module not found")) /\
  field "database" (test_database (W := W) (Ok None) getenv w) =
    Some (VStr "⚠️  Available but not initialized") /\
  (forall e, is_import_error e = false ->
     field "database" (test_database (W := W) (Raise e) getenv w) =
       Some (VStr ("❌ Error: " ++ take_chars 50 (exc_str e)))) /\
  (forall r, r = Ok None \/ (exists e, r = Raise e) ->
     field "collections" (test_database (W := W) r getenv w) = Some (VList [])).
Proof.
  repeat split.
  - intros e He. destruct e; try discriminate; reflexivity.
  - intros r [->|[e ->]]; [reflexivity|]. destruct e; reflexivity.
Qed.

Lemma test_database_unavailable_witness :
  field "database"
    (test_database (W := unit) (Raise (Exception "connection refused")) env_named tt) =
  Some (VStr "❌ Error: connection refused").
Proof.
  apply (proj1 (proj2 (proj2 (test_database_unavailable unit env_named tt)))
           (Exception "connection refused")).
  reflexivity.
Defined.

(** X16.  [collections] is not empty only when [database] reads
    "Connected & Working". *)
Theorem test_database_collections_imply_working W
    (import_db : outcome (option (DbHandle W))) (getenv : string -> option string) (w : W) :
  field "collections" (test_database import_db getenv w) <> Some (VList []) ->
  field "database" (test_database import_db getenv w) =
  Some (VStr "✅ Connected & Working").
Proof.
  diagnostics_cases import_db w; intros H; try reflexivity; now destruct H.
Qed.

Lemma test_database_collections_imply_working_witness :
  field "database"
    (test_database
       (Ok (Some {| db_name := NoAttribute;
                    list_collection_names := fun _ : unit => Ok ["booking"] |}))
       env_named tt) =
  Some (VStr "✅ Connected & Working").
Proof.
  apply (test_database_collections_imply_working unit
           (Ok (Some {| db_name := NoAttribute;
                        list_collection_names := fun _ : unit => Ok ["booking"] |}))
           env_named tt).
  discriminate.
Defined.

Lemma take_chars_short n s : (char_count s <= n)%nat -> take_chars n s = s.
Proof.
  revert n. induction s as [|c s IH]; intros n; simpl; [reflexivity|].
  destruct (is_continuation c); intros H.
  - now rewrite IH.
  - destruct n as [|n]; [lia|]. rewrite IH; [reflexivity|lia].
Qed.

Lemma take_chars_slice n s : is_slice n s (take_chars n s).
Proof.
  unfold is_slice. revert n. induction s as [|c s IH]; intros n; simpl.
  - exists "". repeat split. now rewrite Nat.min_0_r.
  - destruct (is_continuation c) eqn:E.
    + destruct (IH n) as (rest & Hs & Hc & Hr). exists rest. simpl.
      rewrite E, <- Hs. auto.
    + destruct n as [|n].
      * exists (String c s). simpl. now rewrite E.
      * destruct (IH n) as (rest & Hs & Hc & Hr). exists rest. simpl.
        rewrite E, <- Hs, Hc. auto.
Qed.

Lemma char_count_app a b :
  char_count (a ++ b) = (char_count a + char_count b)%nat.
Proof.
  induction a as [|c a IH]; simpl; [reflexivity|].
  destruct (is_continuation c); simpl; now rewrite IH.
Qed.

Lemma starts_character_count r :
  r <> "" -> starts_inside_character r = false -> (0 < char_count r)%nat.
Proof.
  destruct r as [|c r]; simpl; [congruence|]. intros _ ->. lia.
Qed.

(** Two ways of cutting one string: one prefix extends the other. *)
Lemma app_eq_app_string (a b ra rb : string) :
  (a ++ ra = b ++ rb)%string ->
  exists m : string,
    (b = (a ++ m)%string /\ ra = (m ++ rb)%string) \/
    (a = (b ++ m)%string /\ rb = (m ++ ra)%string).
Proof.
  revert b. induction a as [|c a IH]; intros b H; simpl in H.
  - exists b. left. now split.
  - destruct b as [|d b]; simpl in H.
    + exists (String c a). right. now split.
    + injection H as -> H. destruct (IH b H) as [m [[-> ->]|[-> ->]]];
        exists m; [left|right]; now split.
Qed.

Lemma is_slice_unique n s a b : is_slice n s a -> is_slice n s b -> a = b.
Proof.
  intros (ra & Ha & Ca & Ra) (rb & Hb & Cb & Rb).
  rewrite Ha in Hb. destruct (app_eq_app_string a b ra rb Hb) as [m [[-> ->]|[-> ->]]].
  - destruct (string_dec m "") as [->|Hm].
    + clear. induction a as [|c a IH]; simpl; congruence.
    + exfalso. rewrite char_count_app in Cb.
      assert (0 < char_count m)%nat; [|lia].
      apply starts_character_count; [assumption|].
      destruct m; [congruence|exact Ra].
  - destruct (string_dec m "") as [->|Hm].
    + clear. induction b as [|c b IH]; simpl; congruence.
    + exfalso. rewrite char_count_app in Ca.
      assert (0 < char_count m)%nat; [|lia].
      apply starts_character_count; [assumption|].
      destruct m; [congruence|exact Rb].
Qed.

(** X17.  The text of an exception shown in the [database] field is
    [str(e)[:50]]: the prefix of [str(e)] that holds its first 50
    characters, cut between two characters, and the whole of [str(e)] when
    it has no more than 50; no other string is.  This is so on the three
    paths that show an exception: the import, the lookup of the [name] of
    the handle, and the listing of the collections. *)
Theorem test_database_error_truncated W (getenv : string -> option string) (w : W)
    (e : exc) :
  exists shown : string,
    is_slice 50 (exc_str e) shown /\
    (forall other, is_slice 50 (exc_str e) other -> other = shown) /\
    ((char_count (exc_str e) <= 50)%nat -> shown = exc_str e) /\
    (is_import_error e = false ->
     field "database" (test_database (W := W) (Raise e) getenv w) =
       Some (VStr ("❌ Error: " ++ shown))) /\
    (is_import_error e = false ->
     forall db : DbHandle W, db_name db = AttributeRaises e ->
       field "database" (test_database (Ok (Some db)) getenv w) =
         Some (VStr ("❌ Error: " ++ shown))) /\
    (forall db : DbHandle W,
       (forall e', db_name db <> AttributeRaises e') ->
       list_collection_names db w = Raise e ->
       field "database" (test_database (Ok (Some db)) getenv w) =
         Some (VStr ("⚠️  Connected but Error: " ++ shown))).
Proof.
  exists (take_chars 50 (exc_str e)).
  split; [apply take_chars_slice|].
  split; [intros other H; eapply is_slice_unique; [exact H|apply take_chars_slice]|].
  split; [apply take_chars_short|].
  unfold test_database, test_database_body, probe_collections.
  split; [|split].
  - intros He. destruct e; try discriminate; reflexivity.
  - intros He db ->. destruct e; try discriminate; reflexivity.
  - intros db Hname He. rewrite He.
    destruct (db_name db) as [|v|e0]; [| |now destruct (Hname e0)]; reflexivity.
Qed.

Lemma test_database_error_truncated_witness :
  field "database"
    (test_database (W := unit)
       (Raise (Exception "é: the server did not answer within the time that was allowed"))
       env_named tt) =
  Some (VStr "❌ Error: é: the server did not answer within the time that ").
Proof.
  destruct (test_database_error_truncated unit env_named tt
              (Exception "é: the server did not answer within the time that was allowed"))
    as (shown & Hslice & _ & _ & Hshown & _).
  assert (E : shown = "é: the server did not answer within the time that ").
  { eapply is_slice_unique; [exact Hslice|].
    exists "was allowed". repeat split. }
  rewrite (Hshown eq_refl), E. reflexivity.
Defined.

Example truncation_counts_characters :
  take_chars 50 "é: the server did not answer within the time that was allowed" =
  "é: the server did not answer within the time that ".
Proof. reflexivity. Qed.

(** ** Schema export *)

(** X18.  [get_schema] never raises: when the import and the three schema
    exports succeed it returns them under [booking], [user] and [product];
    otherwise it returns [{"error": str(e)}] for the first step that
    raised, in the order import, Booking, User, Product. *)
Theorem get_schema_never_raises (import_schemas : outcome SchemasModule) :
  (forall x, get_schema import_schemas <> Raise x) /\
  (forall e, schema_failure import_schemas = Some e ->
     get_schema import_schemas = Ok (VDict [("error", VStr (exc_str e))])) /\
  (schema_failure import_schemas = None ->
   exists s booking user product,
     import_schemas = Ok s /\
     Booking_json_schema s = Ok booking /\
     User_json_schema s = Ok user /\
     Product_json_schema s = Ok product /\
     get_schema import_schemas =
     Ok (VDict [("booking", booking); ("user", user); ("product", product)])).
Proof.
  unfold get_schema, schema_failure.
  destruct import_schemas as [s|e]; simpl.
  - destruct (Booking_json_schema s) as [b|e1] eqn:Hb; simpl.
    + destruct (User_json_schema s) as [u|e2] eqn:Hu; simpl.
      * destruct (Product_json_schema s) as [p|e3] eqn:Hp; simpl.
        -- repeat split; try discriminate. intros _. exists s, b, u, p. auto.
        -- repeat split; try discriminate. now intros e [= <-].
      * repeat split; try discriminate. now intros e [= <-].
    + repeat split; try discriminate. now intros e [= <-].
  - repeat split; try discriminate. now intros e0 [= <-].
Qed.

Lemma get_schema_never_raises_witness :
  get_schema (Raise (ImportError "No module named 'schemas'")) =
  Ok (VDict [("error", VStr "No module named 'schemas'")]).
Proof.
  apply (proj1 (proj2 (get_schema_never_raises
                         (Raise (ImportError "No module named 'schemas'"))))
           (ImportError "No module named 'schemas'")).
  reflexivity.
Defined.
